(** * TileStache cache seeder: coordinate sources and the seeding loop

    A shallow embedding of [scripts/tilestache-seed.py]: the three coordinate
    generators ([generateCoordinates], [listCoordinates],
    [tilesetCoordinates]), the option checks of the [__main__] block and the
    per-tile fetch loop with its retry counter, error list and progress file.

    Conventions of the embedding:
    - Python integers are [Z]; Python floats (latitudes, longitudes and the
      projected row/column of a corner) are exact rationals [Q], so rounding
      and NaN are outside the model;
    - Python [str] is [string]; the file system is a finite map from file
      names to file contents;
    - exceptions are an explicit result type; the [while] loop runs on fuel
      and its termination is a theorem, not a property of the definition. *)

From Stdlib Require Import ZArith QArith Qround Qminmax Qpower Ascii String.
From Stdlib Require Import DecimalString DecimalPos DecimalZ.
From stdpp Require Import gmap strings list fin_maps.

Local Open Scope Z_scope.

(** ** Python builtins used by the script *)

Module Py.

(** Truth value of an optparse string option: [None] and [''] are false. *)
Definition truthy (o : option string) : bool :=
  match o with
  | Some (String _ _) => true
  | _ => false
  end.

(** [a or b] on strings. *)
Definition or_else (o : option string) (default : string) : string :=
  match o with
  | Some (String c s) => String c s
  | _ => default
  end.

(** [min(a, b)] and [max(a, b)]: the second argument wins only when it is
    strictly smaller (resp. strictly larger). *)
Definition min (a b : Q) : Q := if Qle_bool a b then a else b.
Definition max (a b : Q) : Q := if Qle_bool b a then a else b.

(** [int(x)] on a float: truncation towards zero. *)
Definition int (x : Q) : Z := Z.quot (Qnum x) (Zpos (Qden x)).

(** [range(start, stop)]. *)
Definition range (start stop : Z) : list Z := seqZ start (stop - start).

(** [l[i]] on a list, negative indices counting from the end. *)
Definition index {A} (l : list A) (i : Z) : option A :=
  if 0 <=? i then l !! Z.to_nat i
  else if 0 <=? Z.of_nat (length l) + i then l !! Z.to_nat (Z.of_nat (length l) + i)
  else None.

(** ['%d' % z]. *)
Definition fmt_d (z : Z) : string := NilZero.string_of_int (Z.to_int z).

Definition is_space (c : ascii) : bool :=
  let n := nat_of_ascii c in
  (n =? 32)%nat || ((9 <=? n)%nat && (n <=? 13)%nat).

Definition is_digit (c : ascii) : bool :=
  let n := nat_of_ascii c in
  (48 <=? n)%nat && (n <=? 57)%nat.

Fixpoint lstrip (s : string) : string :=
  match s with
  | String c r => if is_space c then lstrip r else s
  | EmptyString => EmptyString
  end.

Fixpoint rstrip (s : string) : string :=
  match s with
  | String c r =>
      match rstrip r with
      | EmptyString => if is_space c then EmptyString else String c EmptyString
      | r' => String c r'
      end
  | EmptyString => EmptyString
  end.

(** [s.strip()]. *)
Definition strip (s : string) : string := rstrip (lstrip s).

(** [s.split(sep)] for a one-character separator. *)
Fixpoint split (sep : ascii) (s : string) : list string :=
  match s with
  | EmptyString => [EmptyString]
  | String c r =>
      if Ascii.eqb c sep then EmptyString :: split sep r
      else match split sep r with
           | field :: fields => String c field :: fields
           | [] => [String c EmptyString]
           end
  end.

Fixpoint all_digits (s : string) : bool :=
  match s with
  | EmptyString => true
  | String c r => is_digit c && all_digits r
  end.

(** [s.isdigit()]: at least one character, all of them digits. *)
Definition isdigit (s : string) : bool :=
  match s with
  | EmptyString => false
  | _ => all_digits s
  end.

Definition digits (s : string) : option Z :=
  match s with
  | EmptyString => None
  | _ => Z.of_uint <$> NilEmpty.uint_of_string s
  end.

(** [int(s)] on a string: surrounding white space, an optional sign, then
    decimal digits; [None] stands for ValueError. *)
Definition int_of_string (s : string) : option Z :=
  match strip s with
  | String c r =>
      if Ascii.eqb c "-" then Z.opp <$> digits r
      else if Ascii.eqb c "+" then digits r
      else digits (String c r)
  | EmptyString => None
  end.

(** The lines of a text file as iteration over the open file gives them:
    each line keeps its newline, the last one may lack it. *)
Fixpoint readlines (s : string) : list string :=
  match s with
  | EmptyString => []
  | String c r =>
      if Ascii.eqb c "010" then String c EmptyString :: readlines r
      else match readlines r with
           | line :: lines => String c line :: lines
           | [] => [String c EmptyString]
           end
  end.

End Py.

(** ** ModestMaps coordinates *)

Module ModestMaps.

(** Modelled from the spec: ModestMaps' [Coordinate(row, column, zoom)] is
    imported by the script and not part of its source. The spec gives it a
    zoom, a row and a column; the class is duck-typed in row and column:
    projected corners carry fractional values, tiles carry integers. *)
Record Coordinate (A : Type) : Type :=
  mkCoordinate { row : A; column : A; zoom : Z }.
Arguments mkCoordinate {A} _ _ _.
Arguments row {A} _.
Arguments column {A} _.
Arguments zoom {A} _.

(** Modelled from the spec: ModestMaps' [Location(lat, lon)], a geographic
    corner point in degrees. *)
Record Location : Type := mkLocation { lat : Q; lon : Q }.

(** Modelled from the spec: [Coordinate.zoomTo] is not part of the source.
    The spec projects a corner into the tile grid of the zoom level, a grid
    of 2^zoom by 2^zoom tiles: rows and columns scale by the power of two
    between the two zooms (exact on floats short of overflow). *)
Definition zoomTo (c : Coordinate Q) (destination : Z) : Coordinate Q :=
  mkCoordinate (row c * 2 ^ (destination - zoom c))%Q
               (column c * 2 ^ (destination - zoom c))%Q
               destination.

(** Modelled from the spec: [Coordinate.container] is not part of the
    source. The spec takes the containing integer tile: the floor of row and
    column. *)
Definition container (c : Coordinate Q) : Coordinate Q :=
  mkCoordinate (inject_Z (Qfloor (row c))) (inject_Z (Qfloor (column c))) (zoom c).

(** Modelled from the spec: [Coordinate.up] is not part of the source. The
    spec moves a corner up by a number of tiles: towards smaller rows. *)
Definition up (c : Coordinate Q) (distance : Z) : Coordinate Q :=
  mkCoordinate (row c - inject_Z distance)%Q (column c) (zoom c).

(** Modelled from the spec: [Coordinate.down] is not part of the source;
    towards larger rows. *)
Definition down (c : Coordinate Q) (distance : Z) : Coordinate Q :=
  mkCoordinate (row c + inject_Z distance)%Q (column c) (zoom c).

(** Modelled from the spec: [Coordinate.left] is not part of the source;
    towards smaller columns. *)
Definition left (c : Coordinate Q) (distance : Z) : Coordinate Q :=
  mkCoordinate (row c) (column c - inject_Z distance)%Q (zoom c).

(** Modelled from the spec: [Coordinate.right] is not part of the source;
    towards larger columns. *)
Definition right (c : Coordinate Q) (distance : Z) : Coordinate Q :=
  mkCoordinate (row c) (column c + inject_Z distance)%Q (zoom c).

End ModestMaps.

Import ModestMaps.

(** ** Seed items *)

(** The tuples [(offset, count, coord)] the three generators yield. *)
Record SeedItem : Type :=
  mkSeedItem { item_offset : Z; item_count : Z; item_coord : Coordinate Z }.

(** ** [generateCoordinates] *)

(** The padded corners of one zoom level: the expressions bound to [ul_]
    and [lr_] in both loops of [generateCoordinates]. *)
Definition padded_ul (ul : Coordinate Q) (zoom padding : Z) : Coordinate Q :=
  up (left (container (zoomTo ul zoom)) padding) padding.

Definition padded_lr (lr : Coordinate Q) (zoom padding : Z) : Coordinate Q :=
  down (right (container (zoomTo lr zoom)) padding) padding.

(** [rows] and [cols] of the counting loop. *)
Definition rows (ul lr : Coordinate Q) (zoom padding : Z) : Q :=
  (row (padded_lr lr zoom padding) + 1 - row (padded_ul ul zoom padding))%Q.

Definition cols (ul lr : Coordinate Q) (zoom padding : Z) : Q :=
  (column (padded_lr lr zoom padding) + 1 - column (padded_ul ul zoom padding))%Q.

(** First loop: [count += int(rows * cols)] for every zoom. *)
Definition count_zoom (ul lr : Coordinate Q) (padding : Z) (count zoom : Z) : Z :=
  count + Py.int (rows ul lr zoom padding * cols ul lr zoom padding).

Definition count_coordinates (ul lr : Coordinate Q) (zooms : list Z) (padding : Z) : Z :=
  fold_left (count_zoom ul lr padding) zooms 0.

(** Second loop. Each function takes the running [offset] and returns the
    items yielded together with the offset after them. *)
Fixpoint yield_columns (count zoom row : Z) (columns : list Z) (offset : Z)
  : list SeedItem * Z :=
  match columns with
  | [] => ([], offset)
  | column :: columns' =>
      let coord := mkCoordinate row column zoom in
      let '(items, offset') := yield_columns count zoom row columns' (offset + 1) in
      (mkSeedItem offset count coord :: items, offset')
  end.

Fixpoint yield_rows (count zoom : Z) (rows columns : list Z) (offset : Z)
  : list SeedItem * Z :=
  match rows with
  | [] => ([], offset)
  | row :: rows' =>
      let '(items, offset1) := yield_columns count zoom row columns offset in
      let '(items', offset2) := yield_rows count zoom rows' columns offset1 in
      (items ++ items', offset2)
  end.

Fixpoint yield_zooms (ul lr : Coordinate Q) (padding count : Z) (zooms : list Z)
  (offset : Z) : list SeedItem * Z :=
  match zooms with
  | [] => ([], offset)
  | zoom :: zooms' =>
      let ul_ := padded_ul ul zoom padding in
      let lr_ := padded_lr lr zoom padding in
      let row_range := Py.range (Py.int (row ul_)) (Py.int (row lr_ + 1)) in
      let column_range := Py.range (Py.int (column ul_)) (Py.int (column lr_ + 1)) in
      let '(items, offset1) := yield_rows count zoom row_range column_range offset in
      let '(items', offset2) := yield_zooms ul lr padding count zooms' offset1 in
      (items ++ items', offset2)
  end.

(** The generator: the count is complete before the second loop starts, and
    the second loop only reads it. *)
Definition generateCoordinates (ul lr : Coordinate Q) (zooms : list Z) (padding : Z)
  : list SeedItem :=
  let count := count_coordinates ul lr zooms padding in
  let offset := 0 in
  fst (yield_zooms ul lr padding count zooms offset).

(** ** Exceptions *)

(** The causes for which the option checks raise [KnownUnknown]. *)
Inductive Cause : Type :=
  | MissingConfig
  | MissingLayer
  | UnknownLayer (name : string)
  | InvalidZoom (token : string)
  | NegativePadding.

Inductive Exception : Type :=
  | KnownUnknown (cause : Cause)
  | NameError (name : string)
  | IOError (filename : string)
  | ValueError
  | IndexError
  | CollaboratorError
  | BackendError.

Inductive Result (A : Type) : Type :=
  | Ok (a : A)
  | Raise (e : Exception).
Arguments Ok {A} a.
Arguments Raise {A} e.

Definition bind {A B} (r : Result A) (k : A -> Result B) : Result B :=
  match r with
  | Ok a => k a
  | Raise e => Raise e
  end.

Notation "x <- r ;; k" := (bind r (fun x => k))
  (at level 100, r at next level, right associativity).

Fixpoint traverse {A B} (f : A -> Result B) (l : list A) : Result (list B) :=
  match l with
  | [] => Ok []
  | a :: l' => b <- f a ;; bs <- traverse f l' ;; Ok (b :: bs)
  end.

(** ** [listCoordinates] and [tilesetCoordinates] *)

(** [enumerate(coords)] with [count] attached to every item. *)
Fixpoint enumerate_from (offset count : Z) (coords : list (Coordinate Z))
  : list SeedItem :=
  match coords with
  | [] => []
  | coord :: coords' =>
      mkSeedItem offset count coord :: enumerate_from (offset + 1) count coords'
  end.

(** One line of the tile list: strip, split at the slashes, unpack three
    fields as zoom, column, row and convert each with [int]. *)
Definition parse_line (line : string) : Result (Coordinate Z) :=
  match Py.split "/" (Py.strip line) with
  | [zoom; column; row] =>
      match Py.int_of_string row, Py.int_of_string column, Py.int_of_string zoom with
      | Some r, Some c, Some z => Ok (mkCoordinate r c z)
      | _, _, _ => Raise ValueError
      end
  | _ => Raise ValueError
  end.

(** The whole list is built and counted before the first item is yielded. *)
Definition listCoordinates (files : gmap string string) (filename : string)
  : Result (list SeedItem) :=
  match files !! filename with
  | None => Raise (IOError filename)
  | Some text =>
      coords <- traverse parse_line (Py.readlines text) ;;
      let count := Z.of_nat (length coords) in
      Ok (enumerate_from 0 count coords)
  end.

(** ** Collaborators outside the script *)

Record Layer : Type :=
  mkLayer { layer_name : string; locationCoordinate : Location -> Coordinate Q }.

(** A value stored in the [progress] dictionary. *)
Inductive Value : Type :=
  | VStr (s : string)
  | VInt (z : Z).

(** What the script imports and calls. [getTile] receives the number of calls
    made before it, so that a backend may answer differently on a retry;
    [None] is any exception it raises, otherwise the mime type and content. *)
Record Collaborators : Type :=
  mkCollaborators {
    getTile : nat -> Layer -> Coordinate Z -> string -> bool -> option (string * string);
    list_tiles : string -> Result (list (Coordinate Z));
    tileset_info : string -> Result (option string);
    parseConfigfile : string -> Result (gmap string Layer);
    spherical_mercator : Location -> Coordinate Q;
    json_dump : gmap string Value -> string
  }.

Definition tilesetCoordinates (env : Collaborators) (filename : string)
  : Result (list SeedItem) :=
  coords <- list_tiles env filename ;;
  let count := Z.of_nat (length coords) in
  Ok (enumerate_from 0 count coords).

(** ** Options and the checks of the [__main__] block *)

Record Options : Type :=
  mkOptions {
    config : option string;
    layer : option string;
    bbox : Q * Q * Q * Q;
    padding : Z;
    extension : string;
    progressfile : option string;
    verbose : bool;
    outputdirectory : option string;
    mbtiles_output : option string;
    mbtiles_input : option string;
    tile_list : option string;
    error_list : option string;
    enable_retries : bool;
    ignore_cached : bool
  }.

(** [defaults]: extension png, padding 0, verbose, no retries and the bounding
    box of the help text. *)
Definition defaults : Options :=
  {| config := None; layer := None;
     bbox := (37777 # 1000, -122352 # 1000, 37839 # 1000, -122226 # 1000)%Q;
     padding := 0; extension := "png"; progressfile := None; verbose := true;
     outputdirectory := None; mbtiles_output := None; mbtiles_input := None;
     tile_list := None; error_list := None; enable_retries := false;
     ignore_cached := false |}.

(** What the [try] block leaves behind for the rest of the script. *)
Record Job : Type :=
  mkJob {
    job_layer : Layer;
    job_extension : string;
    job_ul : Coordinate Q;
    job_lr : Coordinate Q;
    job_zooms : list Z;
    job_padding : Z;
    job_tile_list : option string;
    job_error_list : option string
  }.

(** [south, west = min(lat1, lat2), min(lon1, lon2)] and
    [north, east = max(lat1, lat2), max(lon1, lon2)], as (south, west, north,
    east). *)
Definition normalize_bbox (b : Q * Q * Q * Q) : Q * Q * Q * Q :=
  let '(lat1, lon1, lat2, lon2) := b in
  (Py.min lat1 lat2, Py.min lon1 lon2, Py.max lat1 lat2, Py.max lon1 lon2).

(** Configuration and layer: the fake test layer, or the configured one. *)
Definition prepare_layer (env : Collaborators) (options : Options) : Result Layer :=
  let has_fake_destination :=
    Py.truthy (outputdirectory options) || Py.truthy (mbtiles_output options) in
  let has_fake_source := Py.truthy (mbtiles_input options) in
  if has_fake_destination && has_fake_source then
    Ok (mkLayer (Py.or_else (layer options) "tiles-layer") (spherical_mercator env))
  else
    match config options with
    | None => Raise (KnownUnknown MissingConfig)
    | Some config_path =>
        match layer options with
        | None => Raise (KnownUnknown MissingLayer)
        | Some name =>
            layers <- parseConfigfile env config_path ;;
            match layers !! name with
            | None => Raise (KnownUnknown (UnknownLayer name))
            | Some l => Ok l
            end
        end
    end.

(** The cache overrides build an MBTiles cache from [extension], a name
    that is bound only after them. *)
Definition override_cache (options : Options) : Result unit :=
  if Py.truthy (outputdirectory options) && Py.truthy (mbtiles_output options) then
    Raise (NameError "extension")
  else if Py.truthy (outputdirectory options) then Ok tt
  else if Py.truthy (mbtiles_output options) then Raise (NameError "extension")
  else Ok tt.

Definition choose_extension (env : Collaborators) (options : Options) : Result string :=
  if Py.truthy (mbtiles_input options) then
    format <- tileset_info env (default "" (mbtiles_input options)) ;;
    Ok (Py.or_else format (extension options))
  else Ok (extension options).

Definition parse_zoom (zoom : string) : Result Z :=
  if Py.isdigit zoom then
    match Py.int_of_string zoom with
    | Some z => Ok z
    | None => Raise ValueError
    end
  else Raise (KnownUnknown (InvalidZoom zoom)).

Definition setup (env : Collaborators) (options : Options) (zooms : list string)
  : Result Job :=
  l <- prepare_layer env options ;;
  _ <- override_cache options ;;
  ext <- choose_extension env options ;;
  let '(south, west, north, east) := normalize_bbox (bbox options) in
  let northwest := mkLocation north west in
  let southeast := mkLocation south east in
  let ul := locationCoordinate l northwest in
  let lr := locationCoordinate l southeast in
  zooms' <- traverse parse_zoom zooms ;;
  if padding options <? 0 then Raise (KnownUnknown NegativePadding)
  else Ok (mkJob l ext ul lr zooms' (padding options)
                 (tile_list options) (error_list options)).

(** The choice of the coordinate source. *)
Definition coordinates (env : Collaborators) (files : gmap string string)
  (options : Options) (job : Job) : Result (list SeedItem) :=
  if Py.truthy (job_tile_list job) then
    listCoordinates files (default "" (job_tile_list job))
  else if Py.truthy (mbtiles_input options) then
    tilesetCoordinates env (default "" (mbtiles_input options))
  else
    Ok (generateCoordinates (job_ul job) (job_lr job) (job_zooms job) (job_padding job)).

(** [coordinates = list(coordinates)[:10]]: the list the [for] loop walks. *)
Definition seeded_items (env : Collaborators) (files : gmap string string)
  (options : Options) (job : Job) : Result (list SeedItem) :=
  stream <- coordinates env files options job ;;
  Ok (take 10 stream).

(** ** The world the loop acts on *)

(** File contents by name, the number of [getTile] calls made so far, and
    what was printed to stderr. *)
Record World : Type :=
  mkWorld { files : gmap string string; calls : nat; stderr : list string }.

Definition print (message : string) (w : World) : World :=
  mkWorld (files w) (calls w) (stderr w ++ [message]).

Definition called (w : World) : World :=
  mkWorld (files w) (S (calls w)) (stderr w).

(** [open(name, 'a')], [write], [close]. *)
Definition append_file (name text : string) (w : World) : World :=
  mkWorld (<[name := default "" (files w !! name) +:+ text]> (files w))
          (calls w) (stderr w).

(** [open(name, 'w')], [write], [close]. *)
Definition write_file (name text : string) (w : World) : World :=
  mkWorld (<[name := text]> (files w)) (calls w) (stderr w).

(** ** The fetch loop of one item *)

(** ['%s/%d/%d/%d.%s' % (layer.name(), coord.zoom, coord.column, coord.row,
    extension)]. *)
Definition tile_path (job : Job) (coord : Coordinate Z) : string :=
  layer_name (job_layer job) +:+ "/" +:+ Py.fmt_d (zoom coord) +:+ "/"
  +:+ Py.fmt_d (column coord) +:+ "/" +:+ Py.fmt_d (row coord) +:+ "."
  +:+ job_extension job.

(** ['%(zoom)d/%(column)d/%(row)d\n' % coord.__dict__]. *)
Definition error_line (coord : Coordinate Z) : string :=
  Py.fmt_d (zoom coord) +:+ "/" +:+ Py.fmt_d (column coord) +:+ "/"
  +:+ Py.fmt_d (row coord) +:+ String "010" "".

(** The dictionary [progress] as first built. *)
Definition initial_progress (path : string) (item : SeedItem) : gmap string Value :=
  <["tile" := VStr path]>
    (<["offset" := VInt (item_offset item + 1)]>
       (<["total" := VInt (item_count item)]> ∅)).

(** ['%dKB' % (len(content) / 1024)]. *)
Definition size_of (content : string) : string :=
  Py.fmt_d (Z.of_nat (String.length content) `div` 1024) +:+ "KB".

Record LoopState : Type :=
  mkLoopState {
    attempts : Z;
    rendered : bool;
    progress : gmap string Value;
    world : World
  }.

(** How one pass through the loop body ends: at the end of the body, at
    [break], or with an exception leaving the [except] clause. *)
Inductive Signal : Type :=
  | EndOfBody
  | Break
  | Reraise (e : Exception).

(** The message of the [except] clause; the word is picked by indexing a
    three-element list with the attempts left. *)
Definition failure_message (path : string) (attempts : Z) : Result string :=
  match Py.index ["no"; "once"; "twice"] attempts with
  | Some word => Ok ("Failed " +:+ path +:+ ", will try " +:+ word +:+ " more.")
  | None => Raise IndexError
  end.

(** One pass through the body of [while not rendered]. *)
Definition fetch_attempt (env : Collaborators) (options : Options) (job : Job)
  (item : SeedItem) (path : string) (st : LoopState) : LoopState * Signal :=
  let coord := item_coord item in
  let w0 :=
    if verbose options then
      print (Py.fmt_d (item_offset item + 1) +:+ " of "
             +:+ Py.fmt_d (item_count item) +:+ "...") (world st)
    else world st in
  let w1 := called w0 in
  match getTile env (calls w0) (job_layer job) coord (job_extension job)
                (ignore_cached options) with
  | None =>
      let attempts' := attempts st - 1 in
      let failed w := mkLoopState attempts' (rendered st) (progress st) w in
      let said :=
        if verbose options then
          message <- failure_message path attempts' ;; Ok (print message w1)
        else Ok w1 in
      match said with
      | Raise e => (failed w1, Reraise e)
      | Ok w2 =>
          if attempts' =? 0 then
            if negb (Py.truthy (job_error_list job)) then
              (failed w2, Reraise BackendError)
            else
              (failed (append_file (default "" (job_error_list job))
                                   (error_line coord) w2), Break)
          else (failed w2, EndOfBody)
      end
  | Some (mimetype, content) =>
      let size := size_of content in
      let progress' := <["size" := VStr size]> (progress st) in
      let w2 :=
        if verbose options then print (path +:+ " (" +:+ size +:+ ")") w1
        else w1 in
      (mkLoopState (attempts st) true progress' w2, EndOfBody)
  end.

(** How the loop is left. *)
Inductive Exit : Type :=
  | ConditionFalse
  | Broke
  | Raised (e : Exception).

(** [while not rendered: ...] with at most [fuel] passes through the body;
    [None] when the fuel runs out before the loop is left. *)
Fixpoint while_not_rendered (fuel : nat) (env : Collaborators) (options : Options)
  (job : Job) (item : SeedItem) (path : string) (st : LoopState)
  : option (LoopState * Exit) :=
  if rendered st then Some (st, ConditionFalse)
  else
    match fuel with
    | O => None
    | S fuel' =>
        match fetch_attempt env options job item path st with
        | (st', EndOfBody) => while_not_rendered fuel' env options job item path st'
        | (st', Break) => Some (st', Broke)
        | (st', Reraise e) => Some (st', Raised e)
        end
    end.

(** ** The seeding loop *)

Inductive Outcome : Type :=
  | Finished (w : World)
  | Aborted (e : Exception) (w : World)
  | Diverged.

Definition budget (options : Options) : Z :=
  if enable_retries options then 3 else 1.

Definition initial_state (options : Options) (job : Job) (item : SeedItem)
  (w : World) : LoopState :=
  mkLoopState (budget options) false
              (initial_progress (tile_path job (item_coord item)) item) w.

(** The progress file is rewritten after the loop is left normally. *)
Definition report (env : Collaborators) (options : Options) (st : LoopState) : World :=
  if Py.truthy (progressfile options) then
    write_file (default "" (progressfile options)) (json_dump env (progress st))
               (world st)
  else world st.

(** The body of [for (offset, count, coord) in coordinates]. *)
Definition seed_item (fuel : nat) (env : Collaborators) (options : Options)
  (job : Job) (w : World) (item : SeedItem) : Outcome :=
  let path := tile_path job (item_coord item) in
  match while_not_rendered fuel env options job item path
                           (initial_state options job item w) with
  | None => Diverged
  | Some (st, Raised e) => Aborted e (world st)
  | Some (st, _) => Finished (report env options st)
  end.

Fixpoint seed_loop (fuel : nat) (env : Collaborators) (options : Options)
  (job : Job) (items : list SeedItem) (w : World) : Outcome :=
  match items with
  | [] => Finished w
  | item :: items' =>
      match seed_item fuel env options job w item with
      | Finished w' => seed_loop fuel env options job items' w'
      | stopped => stopped
      end
  end.

(** The script: option checks, choice of the source, then the loop. An
    exception of the checks ends the run before anything is fetched. *)
Definition main (fuel : nat) (env : Collaborators) (options : Options)
  (zooms : list string) (w : World) : Outcome :=
  match setup env options zooms with
  | Raise e => Aborted e w
  | Ok job =>
      match seeded_items env (files w) options job with
      | Raise e => Aborted e w
      | Ok items => seed_loop fuel env options job items w
      end
  end.

(** ** Vocabulary of the statements *)

(** *** Flood fill, in the words of its description

    The tile containing a corner at a zoom level, the inclusive span between
    two tiles, the per-zoom product of the row and column spans, and the
    order of enumeration: zooms as given, rows ascending, columns ascending
    within a row. These are compared with [generateCoordinates] below. *)

Definition tile_row (c : Coordinate Q) (zoom : Z) : Z :=
  Qfloor (row (zoomTo c zoom)).

Definition tile_column (c : Coordinate Q) (zoom : Z) : Z :=
  Qfloor (column (zoomTo c zoom)).

Definition span (first last : Z) : Z := last + 1 - first.

Definition row_span (ul lr : Coordinate Q) (zoom padding : Z) : Z :=
  span (tile_row ul zoom - padding) (tile_row lr zoom + padding).

Definition column_span (ul lr : Coordinate Q) (zoom padding : Z) : Z :=
  span (tile_column ul zoom - padding) (tile_column lr zoom + padding).

Fixpoint sum_over (f : Z -> Z) (zooms : list Z) : Z :=
  match zooms with
  | [] => 0
  | zoom :: zooms' => f zoom + sum_over f zooms'
  end.

Definition flood_total (ul lr : Coordinate Q) (zooms : list Z) (padding : Z) : Z :=
  sum_over (fun zoom => row_span ul lr zoom padding * column_span ul lr zoom padding)
           zooms.

(** All tiles of a rectangle, row by row. *)
Definition grid (zoom : Z) (rows columns : list Z) : list (Coordinate Z) :=
  row ← rows; (fun column => mkCoordinate row column zoom) <$> columns.

Definition flood (ul lr : Coordinate Q) (zooms : list Z) (padding : Z)
  : list (Coordinate Z) :=
  zoom ← zooms;
  row ← seqZ (tile_row ul zoom - padding) (row_span ul lr zoom padding);
  (fun column => mkCoordinate row column zoom)
    <$> seqZ (tile_column ul zoom - padding) (column_span ul lr zoom padding).

(** The first corner is the upper left one and the second the lower right
    one: same zoom, and neither below nor to the right of the other. *)
Definition upper_left_of (ul lr : Coordinate Q) : Prop :=
  zoom ul = zoom lr /\ (row ul <= row lr)%Q /\ (column ul <= column lr)%Q.

(** A projection that sends north to smaller rows and east to larger
    columns, all at one zoom, as the tile projections do. *)
Definition north_west_up (projection : Location -> Coordinate Q) : Prop :=
  forall a b : Location,
    zoom (projection a) = zoom (projection b)
    /\ ((lat b <= lat a)%Q -> (row (projection a) <= row (projection b))%Q)
    /\ ((lon a <= lon b)%Q -> (column (projection a) <= column (projection b))%Q).


(** *** The backend seen from one item *)

(** The answer of the backend to the call number [n], made for [item]. *)
Definition answer (env : Collaborators) (options : Options) (job : Job)
  (item : SeedItem) (n : nat) : option (string * string) :=
  getTile env n (job_layer job) (item_coord item) (job_extension job)
          (ignore_cached options).

Definition always_fails (env : Collaborators) : Prop :=
  forall n l coord ext ignore, getTile env n l coord ext ignore = None.

Definition fails_twice_then_succeeds (env : Collaborators) (options : Options)
  (job : Job) (item : SeedItem) (first : nat) : Prop :=
  answer env options job item first = None
  /\ answer env options job item (S first) = None
  /\ is_Some (answer env options job item (S (S first))).

(** Every attempt the budget allows for [item] fails. *)
Definition exhausts (env : Collaborators) (options : Options) (job : Job)
  (item : SeedItem) (first : nat) : Prop :=
  forall i, (i < Z.to_nat (budget options))%nat ->
            answer env options job item (first + i) = None.

(** The names of the two files the loop writes. *)
Definition sink (job : Job) : string := default "" (job_error_list job).

Definition progress_path (options : Options) : string :=
  default "" (progressfile options).

(** The files after one more line in the error list. *)
Definition logged (job : Job) (item : SeedItem) (fs : gmap string string)
  : gmap string string :=
  <[sink job := default "" (fs !! sink job) +:+ error_line (item_coord item)]> fs.

(** What holds when the loop, entered in [st], is left in [st'] through
    [exit] after [n] passes through its body. *)
Definition loop_post (env : Collaborators) (options : Options) (job : Job)
  (item : SeedItem) (st st' : LoopState) (exit : Exit) (n : nat) : Prop :=
  (1 <= n)%nat
  /\ Z.of_nat n <= attempts st
  /\ calls (world st') = (calls (world st) + n)%nat
  /\ (forall i, (S i < n)%nat -> answer env options job item (calls (world st) + i) = None)
  /\ match exit with
     | ConditionFalse =>
         exists mimetype content,
           answer env options job item (calls (world st) + (n - 1)) = Some (mimetype, content)
           /\ rendered st' = true
           /\ attempts st' = attempts st - Z.of_nat (n - 1)
           /\ progress st' = <["size" := VStr (size_of content)]> (progress st)
           /\ files (world st') = files (world st)
     | Broke =>
         Z.of_nat n = attempts st
         /\ attempts st' = 0
         /\ answer env options job item (calls (world st) + (n - 1)) = None
         /\ Py.truthy (job_error_list job) = true
         /\ progress st' = progress st
         /\ files (world st') = logged job item (files (world st))
     | Raised e =>
         e = BackendError
         /\ Z.of_nat n = attempts st
         /\ attempts st' = 0
         /\ answer env options job item (calls (world st) + (n - 1)) = None
         /\ Py.truthy (job_error_list job) = false
         /\ progress st' = progress st
         /\ files (world st') = files (world st)
     end.

(** *** Text of a tile list *)

Fixpoint all_chars (p : ascii -> bool) (s : string) : bool :=
  match s with
  | EmptyString => true
  | String c r => p c && all_chars p r
  end.

(** The characters ['%d'] can print. *)
Definition numeric (c : ascii) : bool := Py.is_digit c || Ascii.eqb c "-".

Definition no_space (c : ascii) : bool := negb (Py.is_space c).

Definition no_slash (c : ascii) : bool := negb (Ascii.eqb c "/").

Definition no_newline (c : ascii) : bool := negb (Ascii.eqb c "010").

Definition newline : string := String "010" "".

(** A tile list with one line per coordinate, in the format the error list
    is written in. *)
Fixpoint tile_list_text (coords : list (Coordinate Z)) : string :=
  match coords with
  | [] => ""
  | coord :: coords' => error_line coord +:+ tile_list_text coords'
  end.

Definition example_tile_list : string :=
  "12/600/1200" +:+ newline +:+ "12/601/1200" +:+ newline.

(** ** Example collaborators and inputs *)

(** A projection for examples: rows grow to the south, columns to the east,
    one unit per degree, at zoom 0. *)
Definition flat_projection (l : Location) : Coordinate Q :=
  mkCoordinate (- lat l)%Q (lon l) 0.

Definition show (v : option Value) : string :=
  match v with
  | Some (VStr s) => s
  | Some (VInt z) => Py.fmt_d z
  | None => "-"
  end.

(** A stand-in for the JSON encoder: the four fields in a fixed order. *)
Definition example_dump (record : gmap string Value) : string :=
  show (record !! "tile") +:+ " " +:+ show (record !! "offset") +:+ " "
  +:+ show (record !! "total") +:+ " " +:+ show (record !! "size").

Definition example_env (backend : nat -> option (string * string)) : Collaborators :=
  {| getTile := fun n _ _ _ _ => backend n;
     list_tiles := fun _ => Ok [mkCoordinate 0 0 0; mkCoordinate 0 0 1; mkCoordinate 0 1 1];
     tileset_info := fun _ => Ok (Some "jpg");
     parseConfigfile := fun _ => Ok {[ "osm" := mkLayer "osm" flat_projection ]};
     spherical_mercator := flat_projection;
     json_dump := example_dump |}.

Definition always_ok (n : nat) : option (string * string) := Some ("image/png", "PNG").
Definition never_ok (n : nat) : option (string * string) := None.
Definition third_time_ok (n : nat) : option (string * string) :=
  if (n <? 2)%nat then None else Some ("image/png", "PNG").

Definition example_options : Options :=
  {| config := Some "tilestache.cfg"; layer := Some "osm";
     bbox := (1, 1, 0, 0)%Q;
     padding := 0; extension := "png"; progressfile := Some "progress.json";
     verbose := true;
     outputdirectory := None; mbtiles_output := None; mbtiles_input := None;
     tile_list := None; error_list := Some "errors.txt"; enable_retries := true;
     ignore_cached := false |}.

Definition eleven_tiles : list (Coordinate Z) :=
  (fun column => mkCoordinate 1200 column 12) <$> seqZ 600 11.

Definition tile_list_options : Options :=
  {| config := Some "tilestache.cfg"; layer := Some "osm";
     bbox := bbox defaults;
     padding := 0; extension := "png"; progressfile := Some "progress.json";
     verbose := true;
     outputdirectory := None; mbtiles_output := None; mbtiles_input := None;
     tile_list := Some "tiles.txt"; error_list := None; enable_retries := false;
     ignore_cached := false |}.

Definition tile_list_world : World :=
  mkWorld {[ "tiles.txt" := tile_list_text eleven_tiles ]} 0 [].

Definition example_job : Job :=
  mkJob (mkLayer "osm" flat_projection) "png"
        (mkCoordinate (-1) 0 0)%Q (mkCoordinate 0 1 0)%Q [1; 2] 0
        None (Some "errors.txt").


Definition empty_world : World := mkWorld ∅ 0 [].

Definition example_item : SeedItem := mkSeedItem 0 9 (mkCoordinate (-2) 0 1).

(** * Properties *)

(** ** The flood fill *)

Lemma int_of_integer (x : Q) (z : Z) : (x == inject_Z z)%Q -> Py.int x = z.
Proof.
  unfold Py.int, Qeq; simpl. intros H.
  rewrite Z.mul_1_r in H. rewrite H. apply Z.quot_mul. discriminate.
Qed.

Ltac push_inject :=
  unfold Z.sub;
  repeat (rewrite inject_Z_plus || rewrite inject_Z_opp || rewrite inject_Z_mult);
  change (inject_Z 1) with 1%Q.

Lemma padded_ul_row ul zoom padding :
  (row (padded_ul ul zoom padding) == inject_Z (tile_row ul zoom - padding))%Q.
Proof.
  unfold padded_ul, tile_row; simpl.
  push_inject. ring.
Qed.

Lemma padded_ul_column ul zoom padding :
  (column (padded_ul ul zoom padding) == inject_Z (tile_column ul zoom - padding))%Q.
Proof.
  unfold padded_ul, tile_column; simpl.
  push_inject. ring.
Qed.

Lemma padded_lr_row lr zoom padding :
  (row (padded_lr lr zoom padding) == inject_Z (tile_row lr zoom + padding))%Q.
Proof. unfold padded_lr, tile_row; simpl. rewrite inject_Z_plus. ring. Qed.

Lemma padded_lr_column lr zoom padding :
  (column (padded_lr lr zoom padding) == inject_Z (tile_column lr zoom + padding))%Q.
Proof. unfold padded_lr, tile_column; simpl. rewrite inject_Z_plus. ring. Qed.

Lemma rows_integer ul lr zoom padding :
  (rows ul lr zoom padding == inject_Z (row_span ul lr zoom padding))%Q.
Proof.
  unfold rows, row_span, span. rewrite padded_ul_row, padded_lr_row.
  push_inject. ring.
Qed.

Lemma cols_integer ul lr zoom padding :
  (cols ul lr zoom padding == inject_Z (column_span ul lr zoom padding))%Q.
Proof.
  unfold cols, column_span, span. rewrite padded_ul_column, padded_lr_column.
  push_inject. ring.
Qed.

Lemma count_zoom_integer ul lr padding count zoom :
  count_zoom ul lr padding count zoom
  = count + row_span ul lr zoom padding * column_span ul lr zoom padding.
Proof.
  unfold count_zoom. f_equal. apply int_of_integer.
  rewrite rows_integer, cols_integer, inject_Z_mult. reflexivity.
Qed.

Lemma count_from ul lr padding zooms count :
  fold_left (count_zoom ul lr padding) zooms count
  = count + flood_total ul lr zooms padding.
Proof.
  revert count. induction zooms as [|zoom zooms IH]; intros count; simpl.
  - unfold flood_total; simpl. lia.
  - rewrite IH, count_zoom_integer. unfold flood_total; simpl. lia.
Qed.

Lemma count_coordinates_sum ul lr zooms padding :
  count_coordinates ul lr zooms padding = flood_total ul lr zooms padding.
Proof. unfold count_coordinates. rewrite count_from. lia. Qed.

(** *** Enumeration *)

Lemma enumerate_from_app offset count (l1 l2 : list (Coordinate Z)) :
  enumerate_from offset count (l1 ++ l2)
  = enumerate_from offset count l1
    ++ enumerate_from (offset + Z.of_nat (length l1)) count l2.
Proof.
  revert offset. induction l1 as [|c l1 IH]; intros offset; simpl.
  - f_equal. lia.
  - rewrite IH. do 3 f_equal. lia.
Qed.

Lemma enumerate_from_length offset count (l : list (Coordinate Z)) :
  length (enumerate_from offset count l) = length l.
Proof. revert offset. induction l; intros; simpl; auto. Qed.


Lemma enumerate_from_counts offset count (l : list (Coordinate Z)) item :
  item ∈ enumerate_from offset count l -> item_count item = count.
Proof.
  revert offset. induction l as [|c l IH]; intros offset; simpl.
  - intros H. inversion H.
  - intros H. apply elem_of_cons in H as [-> | H]; [reflexivity | eauto].
Qed.

Lemma enumerate_from_coords offset count (l : list (Coordinate Z)) :
  item_coord <$> enumerate_from offset count l = l.
Proof.
  revert offset. induction l as [|c l IH]; intros offset; [reflexivity|].
  cbn [enumerate_from fmap list_fmap item_coord].
  change (list_fmap _ _ item_coord ?x) with (item_coord <$> x).
  by rewrite IH.
Qed.

Lemma yield_columns_enumerate count zoom row columns offset :
  yield_columns count zoom row columns offset
  = (enumerate_from offset count ((fun column => mkCoordinate row column zoom) <$> columns),
     offset + Z.of_nat (length columns)).
Proof.
  revert offset. induction columns as [|column columns IH]; intros offset.
  - simpl. f_equal. lia.
  - cbn [yield_columns]. rewrite IH. cbn. f_equal. lia.
Qed.

Lemma grid_cons zoom row (rows columns : list Z) :
  grid zoom (row :: rows) columns
  = ((fun column => mkCoordinate row column zoom) <$> columns) ++ grid zoom rows columns.
Proof. reflexivity. Qed.

Lemma grid_length zoom (rows columns : list Z) :
  length (grid zoom rows columns) = (length rows * length columns)%nat.
Proof.
  induction rows as [|row rows IH]; [reflexivity|].
  rewrite grid_cons, length_app, length_fmap, IH. simpl. lia.
Qed.

Lemma yield_rows_enumerate count zoom rows columns offset :
  yield_rows count zoom rows columns offset
  = (enumerate_from offset count (grid zoom rows columns),
     offset + Z.of_nat (length (grid zoom rows columns))).
Proof.
  revert offset. induction rows as [|row rows IH]; intros offset.
  - simpl. f_equal. lia.
  - cbn [yield_rows]. rewrite yield_columns_enumerate, IH.
    rewrite grid_cons, enumerate_from_app, length_app, !length_fmap.
    f_equal. lia.
Qed.

Lemma flood_cons ul lr zoom zooms padding :
  flood ul lr (zoom :: zooms) padding
  = grid zoom (seqZ (tile_row ul zoom - padding) (row_span ul lr zoom padding))
              (seqZ (tile_column ul zoom - padding) (column_span ul lr zoom padding))
    ++ flood ul lr zooms padding.
Proof. unfold flood. by rewrite bind_cons. Qed.

Lemma row_range_seqZ ul lr zoom padding :
  Py.range (Py.int (row (padded_ul ul zoom padding)))
           (Py.int (row (padded_lr lr zoom padding) + 1))
  = seqZ (tile_row ul zoom - padding) (row_span ul lr zoom padding).
Proof.
  unfold Py.range, row_span, span.
  rewrite (int_of_integer _ _ (padded_ul_row ul zoom padding)).
  rewrite (int_of_integer _ (tile_row lr zoom + padding + 1)); [reflexivity|].
  rewrite padded_lr_row. push_inject. ring.
Qed.

Lemma column_range_seqZ ul lr zoom padding :
  Py.range (Py.int (column (padded_ul ul zoom padding)))
           (Py.int (column (padded_lr lr zoom padding) + 1))
  = seqZ (tile_column ul zoom - padding) (column_span ul lr zoom padding).
Proof.
  unfold Py.range, column_span, span.
  rewrite (int_of_integer _ _ (padded_ul_column ul zoom padding)).
  rewrite (int_of_integer _ (tile_column lr zoom + padding + 1)); [reflexivity|].
  rewrite padded_lr_column. push_inject. ring.
Qed.

Lemma yield_zooms_enumerate ul lr padding count zooms offset :
  yield_zooms ul lr padding count zooms offset
  = (enumerate_from offset count (flood ul lr zooms padding),
     offset + Z.of_nat (length (flood ul lr zooms padding))).
Proof.
  revert offset. induction zooms as [|zoom zooms IH]; intros offset.
  - simpl. f_equal. lia.
  - cbn [yield_zooms]. cbv zeta.
    rewrite row_range_seqZ, column_range_seqZ, yield_rows_enumerate, IH.
    rewrite flood_cons, enumerate_from_app, length_app. f_equal. lia.
Qed.

Lemma generateCoordinates_enumerate ul lr zooms padding :
  generateCoordinates ul lr zooms padding
  = enumerate_from 0 (count_coordinates ul lr zooms padding)
                   (flood ul lr zooms padding).
Proof. unfold generateCoordinates. cbv zeta. by rewrite yield_zooms_enumerate. Qed.

(** *** Corners in order *)

Lemma tile_row_mono ul lr zoom :
  upper_left_of ul lr -> tile_row ul zoom <= tile_row lr zoom.
Proof.
  intros (Hz & Hr & _). unfold tile_row, zoomTo. cbn [row]. rewrite Hz.
  apply Qfloor_resp_le, Qmult_le_compat_r; [exact Hr|].
  apply Qlt_le_weak, Qpower_0_lt. reflexivity.
Qed.

Lemma tile_column_mono ul lr zoom :
  upper_left_of ul lr -> tile_column ul zoom <= tile_column lr zoom.
Proof.
  intros (Hz & _ & Hc). unfold tile_column, zoomTo. cbn [column]. rewrite Hz.
  apply Qfloor_resp_le, Qmult_le_compat_r; [exact Hc|].
  apply Qlt_le_weak, Qpower_0_lt. reflexivity.
Qed.

Lemma spans_positive ul lr zoom padding :
  upper_left_of ul lr -> 0 <= padding ->
  0 < row_span ul lr zoom padding /\ 0 < column_span ul lr zoom padding.
Proof.
  intros Hul Hp. unfold row_span, column_span, span.
  pose proof (tile_row_mono ul lr zoom Hul).
  pose proof (tile_column_mono ul lr zoom Hul). lia.
Qed.

(** Without any assumption on the corners an empty range contributes no
    item, whatever the product of the two spans is. *)
Lemma flood_length ul lr zooms padding :
  Z.of_nat (length (flood ul lr zooms padding))
  = sum_over (fun zoom => Z.max 0 (row_span ul lr zoom padding)
                          * Z.max 0 (column_span ul lr zoom padding)) zooms.
Proof.
  induction zooms as [|zoom zooms IH]; [reflexivity|].
  rewrite flood_cons, length_app, grid_length, !length_seqZ.
  cbn [sum_over]. rewrite <- IH. lia.
Qed.

Lemma flood_length_ordered ul lr zooms padding :
  upper_left_of ul lr -> 0 <= padding ->
  Z.of_nat (length (flood ul lr zooms padding)) = flood_total ul lr zooms padding.
Proof.
  intros Hul Hp. rewrite flood_length. unfold flood_total.
  induction zooms as [|zoom zooms IH]; [reflexivity|].
  cbn [sum_over]. rewrite IH.
  destruct (spans_positive ul lr zoom padding Hul Hp). lia.
Qed.

(** Claim C2, as amended. For corners given as upper left and lower right
    (same zoom, the first neither below nor to the right of the second),
    zoom levels and a padding [0 <= padding], the count of the flood fill is
    the sum over the zoom levels of rows times columns, the inclusive spans
    between the padded corner tiles; it is computed by the first loop, so
    every item,
    the first included, carries it; the generator yields exactly that many
    items; and they come zooms in the order given, rows ascending, columns
    ascending within a row. *)
Theorem generateCoordinates_total ul lr zooms padding :
  upper_left_of ul lr -> 0 <= padding ->
  let total := flood_total ul lr zooms padding in
  let items := generateCoordinates ul lr zooms padding in
  count_coordinates ul lr zooms padding = total
  /\ (forall item, item ∈ items -> item_count item = total)
  /\ Z.of_nat (length items) = total
  /\ item_coord <$> items = flood ul lr zooms padding.
Proof.
  intros Hul Hp total items. subst total items.
  rewrite generateCoordinates_enumerate, count_coordinates_sum.
  repeat split.
  - intros item. apply enumerate_from_counts.
  - rewrite enumerate_from_length. by apply flood_length_ordered.
  - apply enumerate_from_coords.
Qed.

(** ** The three sources *)





(** ** The fetch loop *)

Lemma failure_message_ok path a :
  0 <= a <= 2 -> exists message, failure_message path a = Ok message.
Proof.
  intros H. unfold failure_message.
  assert (a = 0 \/ a = 1 \/ a = 2) as [-> | [-> | ->]] by lia; simpl; eauto.
Qed.

Lemma budget_cases options :
  budget options = (if enable_retries options then 3 else 1)
  /\ 1 <= budget options <= 3.
Proof. unfold budget. destruct (enable_retries options); lia. Qed.

Lemma report_files env options st :
  files (report env options st)
  = if Py.truthy (progressfile options)
    then <[progress_path options := json_dump env (progress st)]> (files (world st))
    else files (world st).
Proof. unfold report. by destruct (Py.truthy (progressfile options)). Qed.

Lemma report_calls env options st :
  calls (report env options st) = calls (world st).
Proof. unfold report. by destruct (Py.truthy (progressfile options)). Qed.

Lemma initial_progress_lookup path item :
  initial_progress path item !! "tile" = Some (VStr path)
  /\ initial_progress path item !! "offset" = Some (VInt (item_offset item + 1))
  /\ initial_progress path item !! "total" = Some (VInt (item_count item))
  /\ initial_progress path item !! "size" = None.
Proof. unfold initial_progress. by simplify_map_eq. Qed.

Lemma initial_progress_keys path item key :
  is_Some (initial_progress path item !! key) ->
  key = "tile" \/ key = "offset" \/ key = "total".
Proof.
  unfold initial_progress. intros [v Hv].
  destruct (decide (key = "tile")); [auto|].
  destruct (decide (key = "offset")); [auto|].
  destruct (decide (key = "total")); [auto|].
  by simplify_map_eq.
Qed.

(** The environment, the options, the job and the item are fixed while one
    item is fetched. *)
Section FetchLoop.

Context (env : Collaborators) (options : Options) (job : Job) (item : SeedItem).

Lemma fetch_attempt_calls path st :
  calls (world (fetch_attempt env options job item path st).1) = S (calls (world st)).
Proof.
  unfold fetch_attempt.
  assert (Hc : calls (if verbose options
                      then print (Py.fmt_d (item_offset item + 1) +:+ " of "
                                  +:+ Py.fmt_d (item_count item) +:+ "...") (world st)
                      else world st) = calls (world st))
    by (destruct (verbose options); reflexivity).
  destruct (getTile env _ _ _ _ _) as [[mimetype content]|].
  - destruct (verbose options); simpl; congruence.
  - destruct (verbose options); simpl.
    + destruct (failure_message path (attempts st - 1)); simpl;
        [|congruence].
      destruct (attempts st - 1 =? 0); [|simpl; congruence].
      destruct (negb _); simpl; congruence.
    + destruct (attempts st - 1 =? 0); [|simpl; congruence].
      destruct (negb _); simpl; congruence.
Qed.

Lemma fetch_attempt_success path st mimetype content :
  answer env options job item (calls (world st)) = Some (mimetype, content) ->
  exists w',
    fetch_attempt env options job item path st
    = (mkLoopState (attempts st) true
                   (<["size" := VStr (size_of content)]> (progress st)) w',
       EndOfBody)
    /\ calls w' = S (calls (world st))
    /\ files w' = files (world st).
Proof.
  unfold answer, fetch_attempt. intros H.
  destruct (verbose options); simpl in *; rewrite H; eexists; eauto.
Qed.

Lemma fetch_attempt_failure path st :
  answer env options job item (calls (world st)) = None ->
  1 <= attempts st <= 3 ->
  exists w' signal,
    fetch_attempt env options job item path st
    = (mkLoopState (attempts st - 1) (rendered st) (progress st) w', signal)
    /\ calls w' = S (calls (world st))
    /\ ((1 < attempts st /\ signal = EndOfBody /\ files w' = files (world st))
        \/ (attempts st = 1 /\ Py.truthy (job_error_list job) = true
            /\ signal = Break /\ files w' = logged job item (files (world st)))
        \/ (attempts st = 1 /\ Py.truthy (job_error_list job) = false
            /\ signal = Reraise BackendError /\ files w' = files (world st))).
Proof.
  unfold answer, fetch_attempt. intros H Ha.
  destruct (failure_message_ok path (attempts st - 1)) as [message Hm]; [lia|].
  destruct (verbose options); simpl in *; rewrite H; simpl; rewrite ?Hm; simpl;
    (destruct (Z.eqb_spec (attempts st - 1) 0) as [H0|H0];
     [ destruct (Py.truthy (job_error_list job)) eqn:Hs; simpl;
       do 2 eexists; (split; [reflexivity|]); (split; [reflexivity|]);
       [right; left | right; right]; repeat split; try lia; reflexivity
     | do 2 eexists; (split; [reflexivity|]); (split; [reflexivity|]);
       left; repeat split; lia ]).
Qed.

Lemma while_rendered fuel path st :
  rendered st = true ->
  while_not_rendered fuel env options job item path st = Some (st, ConditionFalse).
Proof. intros H. destruct fuel; simpl; by rewrite H. Qed.

Lemma while_not_rendered_spec fuel path st :
  rendered st = false ->
  1 <= attempts st <= 3 ->
  (Z.to_nat (attempts st) <= fuel)%nat ->
  exists st' exit n,
    while_not_rendered fuel env options job item path st = Some (st', exit)
    /\ loop_post env options job item st st' exit n.
Proof.
  revert st. induction fuel as [|fuel IH]; intros st Hr Ha Hf; [lia|].
  cbn [while_not_rendered]. rewrite Hr.
  destruct (answer env options job item (calls (world st))) as [[mimetype content]|] eqn:Hans.
  - destruct (fetch_attempt_success path st _ _ Hans)
      as (w' & -> & Hc & Hfs).
    rewrite while_rendered by reflexivity.
    do 2 eexists. exists 1%nat. split; [reflexivity|].
    unfold loop_post; cbn [world rendered progress attempts].
    repeat split; try lia.
    exists mimetype, content. rewrite Nat.add_0_r. repeat split; auto. simpl; lia.
  - destruct (fetch_attempt_failure path st Hans Ha)
      as (w' & signal & -> & Hc & Hcase).
    destruct Hcase as [(Hlt & -> & Hfs) | [(H1 & Hs & -> & Hfs) | (H1 & Hs & -> & Hfs)]].
    + destruct (IH (mkLoopState (attempts st - 1) (rendered st) (progress st) w'))
        as (st' & exit & n & Hrun & Hn & Hle & Hcalls & Hnone & Hexit);
        cbn [attempts rendered]; [done | lia | lia |].
      cbn [world attempts rendered progress] in *.
      exists st', exit, (S n). split; [exact Hrun|].
      assert (Hidx : forall k, (calls w' + k = calls (world st) + S k)%nat) by (intros; lia).
      unfold loop_post. repeat split; try lia.
      * intros [|i] Hi; [by rewrite Nat.add_0_r|].
        rewrite <- Hidx. apply Hnone. lia.
      * replace (S n - 1)%nat with (S (n - 1)) by lia. rewrite <- Hidx.
        destruct exit.
        -- destruct Hexit as (m & c & ? & ? & ? & ? & ?). exists m, c.
           repeat split; auto; [lia | congruence].
        -- destruct Hexit as (? & ? & ? & ? & ? & ?). repeat split; auto; try lia. congruence.
        -- destruct Hexit as (? & ? & ? & ? & ? & ? & ?). repeat split; auto; try lia. congruence.
    + do 2 eexists. exists 1%nat. split; [reflexivity|].
      unfold loop_post; cbn [world rendered progress attempts].
      rewrite Nat.add_0_r. repeat split; auto; simpl; lia.
    + do 2 eexists. exists 1%nat. split; [reflexivity|].
      unfold loop_post; cbn [world rendered progress attempts].
      rewrite Nat.add_0_r. repeat split; auto; simpl; lia.
Qed.

Lemma while_fuel_mono fuel fuel' path st result :
  (fuel <= fuel')%nat ->
  while_not_rendered fuel env options job item path st = Some result ->
  while_not_rendered fuel' env options job item path st = Some result.
Proof.
  revert fuel' st. induction fuel as [|fuel IH]; intros fuel' st Hle.
  - simpl. destruct (rendered st) eqn:Hr; [|discriminate].
    intros <-. by apply while_rendered.
  - destruct fuel' as [|fuel']; [lia|]. cbn [while_not_rendered].
    destruct (rendered st); [done|].
    destruct (fetch_attempt env options job item path st) as [st1 [| |e]]; auto.
    apply IH. lia.
Qed.

(** The loop on a fresh item, and what [seed_item] makes of its exit. *)
Lemma seed_item_spec fuel w :
  (Z.to_nat (budget options) <= fuel)%nat ->
  exists st' exit n,
    while_not_rendered fuel env options job item (tile_path job (item_coord item))
                       (initial_state options job item w) = Some (st', exit)
    /\ loop_post env options job item (initial_state options job item w) st' exit n
    /\ seed_item fuel env options job w item
       = match exit with
         | Raised e => Aborted e (world st')
         | _ => Finished (report env options st')
         end.
Proof.
  intros Hf. destruct (budget_cases options) as [_ Hb].
  destruct (while_not_rendered_spec fuel
              (tile_path job (item_coord item)) (initial_state options job item w))
    as (st' & exit & n & Hrun & Hpost); [reflexivity | exact Hb | exact Hf |].
  exists st', exit, n. repeat split; [exact Hrun | apply Hpost..|].
  unfold seed_item. rewrite Hrun. by destruct exit.
Qed.

Lemma seed_item_exhausted fuel w :
  (Z.to_nat (budget options) <= fuel)%nat ->
  exhausts env options job item (calls w) ->
  exists st',
    calls (world st') = (calls w + Z.to_nat (budget options))%nat
    /\ attempts st' = 0
    /\ progress st' = initial_progress (tile_path job (item_coord item)) item
    /\ if Py.truthy (job_error_list job)
       then seed_item fuel env options job w item = Finished (report env options st')
            /\ files (world st') = logged job item (files w)
       else seed_item fuel env options job w item = Aborted BackendError (world st')
            /\ files (world st') = files w.
Proof.
  intros Hf Hex.
  destruct (seed_item_spec fuel w Hf)
    as (st' & exit & n & _ & (Hn & Hle & Hcalls & Hnone & Hexit) & Hitem).
  cbn [initial_state world attempts progress] in *.
  exists st'. destruct exit.
  - destruct Hexit as (m & c & Hans & _). rewrite Hex in Hans by lia. discriminate.
  - destruct Hexit as (Hn' & Ha & _ & Hs & Hp & Hfs). rewrite Hs.
    repeat split; auto. rewrite Hcalls. lia.
  - destruct Hexit as (-> & Hn' & Ha & _ & Hs & Hp & Hfs). rewrite Hs.
    repeat split; auto. rewrite Hcalls. lia.
Qed.

Lemma always_fails_exhausts first :
  always_fails env -> exhausts env options job item first.
Proof. intros H i _. apply H. Qed.

Lemma seed_item_third_time fuel w :
  (Z.to_nat (budget options) <= fuel)%nat ->
  enable_retries options = true ->
  fails_twice_then_succeeds env options job item (calls w) ->
  exists st' mimetype content,
    answer env options job item (S (S (calls w))) = Some (mimetype, content)
    /\ seed_item fuel env options job w item = Finished (report env options st')
    /\ calls (world st') = (calls w + 3)%nat
    /\ rendered st' = true
    /\ progress st' = <["size" := VStr (size_of content)]>
                        (initial_progress (tile_path job (item_coord item)) item)
    /\ files (world st') = files w.
Proof.
  intros Hf Hretry (H0 & H1 & H2).
  destruct (seed_item_spec fuel w Hf)
    as (st' & exit & n & _ & (Hn & Hle & Hcalls & Hnone & Hexit) & Hitem).
  cbn [initial_state world attempts progress] in *.
  unfold budget in *. rewrite Hretry in *.
  assert (Hidx : forall k, (calls w + S k = S (calls w + k))%nat) by (intros; lia).
  destruct exit.
  - destruct Hexit as (m & c & Hans & Hr & _ & Hp & Hfs).
    assert (n = 3)%nat as ->.
    { destruct n as [|[|[|[|n]]]]; try lia; simpl in Hans.
      - rewrite Nat.add_0_r in Hans. congruence.
      - rewrite Hidx, Nat.add_0_r in Hans. congruence. }
    simpl in Hans. rewrite !Hidx, Nat.add_0_r in Hans.
    exists st', m, c. repeat split; auto.
  - destruct Hexit as (Hn' & _ & Hans & _). assert (n = 3)%nat as -> by lia.
    simpl in Hans. rewrite !Hidx, Nat.add_0_r in Hans.
    rewrite Hans in H2. by destruct H2.
  - destruct Hexit as (_ & Hn' & _ & Hans & _). assert (n = 3)%nat as -> by lia.
    simpl in Hans. rewrite !Hidx, Nat.add_0_r in Hans.
    rewrite Hans in H2. by destruct H2.
Qed.

(** Claim C4. With enough fuel for the budget: against a backend that always
    fails, an item costs exactly 1 call of the backend without retries and
    exactly 3 with them, after which it is finished through the error list or
    the exception aborts the job; against a backend that fails twice and then
    succeeds, with retries, the item is finished after 3 calls, its record
    has a size, and no file but the progress file is written. *)
Theorem retry_attempts fuel w :
  (Z.to_nat (budget options) <= fuel)%nat ->
  (always_fails env ->
   exists w',
     calls w' = (calls w + (if enable_retries options then 3 else 1))%nat
     /\ if Py.truthy (job_error_list job)
        then seed_item fuel env options job w item = Finished w'
        else seed_item fuel env options job w item = Aborted BackendError w')
  /\ (enable_retries options = true ->
      fails_twice_then_succeeds env options job item (calls w) ->
      exists w' record,
        seed_item fuel env options job w item = Finished w'
        /\ calls w' = (calls w + 3)%nat
        /\ is_Some (record !! "size")
        /\ files w' = if Py.truthy (progressfile options)
                      then <[progress_path options := json_dump env record]> (files w)
                      else files w).
Proof.
  intros Hf. split.
  - intros Hfail.
    destruct (seed_item_exhausted fuel w Hf
                (always_fails_exhausts _ Hfail))
      as (st' & Hcalls & _ & _ & Hrest).
    assert (Hb : Z.to_nat (budget options) = if enable_retries options then 3%nat else 1%nat)
      by (unfold budget; destruct (enable_retries options); reflexivity).
    rewrite Hb in Hcalls.
    destruct (Py.truthy (job_error_list job)).
    + exists (report env options st'). rewrite report_calls. split; [exact Hcalls | apply Hrest].
    + exists (world st'). split; [exact Hcalls | apply Hrest].
  - intros Hretry Hflaky.
    destruct (seed_item_third_time fuel w Hf Hretry Hflaky)
      as (st' & m & c & _ & Hitem & Hcalls & _ & Hp & Hfs).
    exists (report env options st'), (progress st').
    rewrite report_calls, report_files, Hfs. repeat split; auto.
    rewrite Hp, lookup_insert_eq. eauto.
Qed.

(** Claim C5. When every attempt of the budget fails: with an error list
    configured the loop goes on with the next item, the error list having
    gained exactly the line zoom/column/row and a newline for the failed
    coordinate (before the progress file, if any, is rewritten); with none
    the job is aborted by the backend's exception after the budgeted calls,
    whatever items remain, and no file is touched. *)
Theorem exhausted_routing fuel w items :
  (Z.to_nat (budget options) <= fuel)%nat ->
  exhausts env options job item (calls w) ->
  if Py.truthy (job_error_list job) then
    exists w' record,
      seed_item fuel env options job w item = Finished w'
      /\ seed_loop fuel env options job (item :: items) w
         = seed_loop fuel env options job items w'
      /\ files w'
         = (let fs := <[sink job := default "" (files w !! sink job)
                                    +:+ (Py.fmt_d (zoom (item_coord item)) +:+ "/"
                                         +:+ Py.fmt_d (column (item_coord item)) +:+ "/"
                                         +:+ Py.fmt_d (row (item_coord item))
                                         +:+ String "010" "")]> (files w) in
            if Py.truthy (progressfile options)
            then <[progress_path options := json_dump env record]> fs
            else fs)
  else
    exists w',
      seed_loop fuel env options job (item :: items) w = Aborted BackendError w'
      /\ calls w' = (calls w + Z.to_nat (budget options))%nat
      /\ files w' = files w.
Proof.
  intros Hf Hex.
  destruct (seed_item_exhausted fuel w Hf Hex)
    as (st' & Hcalls & _ & _ & Hrest).
  destruct (Py.truthy (job_error_list job)).
  - destruct Hrest as [Hitem Hfs].
    exists (report env options st'), (progress st').
    split; [exact Hitem|]. split.
    + cbn [seed_loop]. by rewrite Hitem.
    + rewrite report_files, Hfs. reflexivity.
  - destruct Hrest as [Hitem Hfs]. exists (world st').
    cbn [seed_loop]. rewrite Hitem. auto.
Qed.

(** Claim C9. With a progress file configured, an item either aborts the job
    (budget exhausted, no error list) leaving the files as they were, or the
    progress file is overwritten with one record whose tile is
    layer/zoom/column/row.extension, whose offset is the item's offset plus 1
    and whose total is the stream's; the record has no other key than size,
    which is the content length in whole kilobytes followed by KB when an
    attempt succeeded and is absent when the budget was exhausted. *)
Theorem progress_snapshot fuel w :
  (Z.to_nat (budget options) <= fuel)%nat ->
  Py.truthy (progressfile options) = true ->
  (exists w',
     seed_item fuel env options job w item = Aborted BackendError w'
     /\ exhausts env options job item (calls w)
     /\ Py.truthy (job_error_list job) = false
     /\ files w' = files w)
  \/ (exists w' record fs,
        seed_item fuel env options job w item = Finished w'
        /\ files w' = <[progress_path options := json_dump env record]> fs
        /\ record !! "tile"
           = Some (VStr (layer_name (job_layer job) +:+ "/"
                         +:+ Py.fmt_d (zoom (item_coord item)) +:+ "/"
                         +:+ Py.fmt_d (column (item_coord item)) +:+ "/"
                         +:+ Py.fmt_d (row (item_coord item)) +:+ "."
                         +:+ job_extension job))
        /\ record !! "offset" = Some (VInt (item_offset item + 1))
        /\ record !! "total" = Some (VInt (item_count item))
        /\ (forall key, is_Some (record !! key) ->
                        key = "tile" \/ key = "offset" \/ key = "total" \/ key = "size")
        /\ ((exists n mimetype content,
               (n < Z.to_nat (budget options))%nat
               /\ (forall i, (i < n)%nat -> answer env options job item (calls w + i) = None)
               /\ answer env options job item (calls w + n) = Some (mimetype, content)
               /\ record !! "size"
                  = Some (VStr (Py.fmt_d (Z.of_nat (String.length content) `div` 1024)
                                +:+ "KB")))
            \/ (exhausts env options job item (calls w)
                /\ Py.truthy (job_error_list job) = true
                /\ record !! "size" = None))).
Proof.
  intros Hf Hpf.
  destruct (seed_item_spec fuel w Hf)
    as (st' & exit & n & _ & (Hn & Hle & Hcalls & Hnone & Hexit) & Hitem).
  cbn [initial_state world attempts progress] in *.
  destruct (initial_progress_lookup (tile_path job (item_coord item)) item)
    as (Htile & Hoffset & Htotal & Hsize).
  pose proof (initial_progress_keys (tile_path job (item_coord item)) item) as Hkeys.
  destruct exit.
  - right. destruct Hexit as (m & c & Hans & _ & _ & Hp & Hfs).
    exists (report env options st'), (progress st'), (files (world st')).
    split; [exact Hitem|]. rewrite report_files, Hpf, Hp.
    split; [reflexivity|].
    rewrite !lookup_insert_ne by done. repeat split; auto.
    + intros key. destruct (decide (key = "size")) as [->|Hne]; [auto|].
      rewrite lookup_insert_ne by done. intros H. apply Hkeys in H. tauto.
    + left. exists (n - 1)%nat, m, c.
      split; [lia|]. split; [intros i Hi; apply Hnone; lia|].
      split; [exact Hans|]. by rewrite lookup_insert_eq.
  - right. destruct Hexit as (Hn' & _ & Hans & Hs & Hp & Hfs).
    exists (report env options st'), (progress st'), (files (world st')).
    split; [exact Hitem|]. rewrite report_files, Hpf, Hp.
    repeat split; auto.
    + intros key H. apply Hkeys in H. tauto.
    + right. repeat split; auto.
      intros i Hi. destruct (decide (S i < n)%nat); [by apply Hnone|].
      replace i with (n - 1)%nat by lia. exact Hans.
  - left. destruct Hexit as (-> & Hn' & _ & Hans & Hs & Hp & Hfs).
    exists (world st'). repeat split; auto.
    intros i Hi. destruct (decide (S i < n)%nat); [by apply Hnone|].
    replace i with (n - 1)%nat by lia. exact Hans.
Qed.

Lemma fetch_attempt_step path st :
  let '(st1, signal) := fetch_attempt env options job item path st in
  (rendered st1 = true /\ signal = EndOfBody)
  \/ (attempts st1 = attempts st - 1
      /\ rendered st1 = rendered st
      /\ (attempts st1 = 0 -> signal = Break \/ exists e, signal = Reraise e)).
Proof.
  unfold fetch_attempt. cbv zeta.
  destruct (getTile env _ _ _ _ _) as [[mimetype content]|]; [left; by split|].
  destruct (verbose options); cbn [bind].
  - destruct (failure_message path (attempts st - 1)); cbn [bind].
    + destruct (Z.eqb_spec (attempts st - 1) 0).
      * destruct (negb _); right; cbn; repeat split; eauto.
      * right; cbn; repeat split; auto. intros; contradiction.
    + right; cbn; repeat split; eauto.
  - destruct (Z.eqb_spec (attempts st - 1) 0).
    + destruct (negb _); right; cbn; repeat split; eauto.
    + right; cbn; repeat split; auto. intros; contradiction.
Qed.

(** Claim C10. One pass through the loop body either renders the tile and
    reaches the end of the body, or decrements the attempts left, and with
    none left leaves by break or by an exception. From the initial state of
    an item the loop is left after at least 1 and at most budget passes (3
    with retries, 1 without), for whatever the backend answers, with any
    fuel that covers the budget; it is left rendered, or with no attempts
    left by break (error list) or by the exception (no error list); and
    [seed_item] runs it once. *)
Theorem fetch_loop_terminates fuel w :
  (Z.to_nat (budget options) <= fuel)%nat ->
  let path := tile_path job (item_coord item) in
  let start := initial_state options job item w in
  (forall st,
     let '(st1, signal) := fetch_attempt env options job item path st in
     (rendered st1 = true /\ signal = EndOfBody)
     \/ (attempts st1 = attempts st - 1
         /\ rendered st1 = rendered st
         /\ (attempts st1 = 0 -> signal = Break \/ exists e, signal = Reraise e)))
  /\ exists st' exit n,
       while_not_rendered fuel env options job item path start = Some (st', exit)
       /\ (forall fuel', (Z.to_nat (budget options) <= fuel')%nat ->
             while_not_rendered fuel' env options job item path start = Some (st', exit))
       /\ (1 <= n <= Z.to_nat (budget options))%nat
       /\ budget options = (if enable_retries options then 3 else 1)
       /\ calls (world st') = (calls w + n)%nat
       /\ match exit with
          | ConditionFalse => rendered st' = true
          | Broke => attempts st' = 0 /\ Py.truthy (job_error_list job) = true
          | Raised e => attempts st' = 0 /\ Py.truthy (job_error_list job) = false
          end
       /\ seed_item fuel env options job w item
          = match exit with
            | Raised e => Aborted e (world st')
            | _ => Finished (report env options st')
            end.
Proof.
  intros Hf path start. split; [intros st; apply fetch_attempt_step|].
  destruct (seed_item_spec (Z.to_nat (budget options)) w (le_n _))
    as (st' & exit & n & Hrun & (Hn & Hle & Hcalls & _ & Hexit) & _).
  fold path start in Hrun.
  cbn [initial_state world attempts progress] in *.
  exists st', exit, n.
  assert (Hall : forall fuel', (Z.to_nat (budget options) <= fuel')%nat ->
            while_not_rendered fuel' env options job item path start = Some (st', exit))
    by (intros fuel' Hle'; exact (while_fuel_mono _ _ _ _ _ Hle' Hrun)).
  split; [exact (Hall fuel Hf)|]. split; [exact Hall|].
  split; [lia|]. split; [exact (proj1 (budget_cases options))|].
  split; [exact Hcalls|]. split.
  - destruct exit; [destruct Hexit as (? & ? & ?) | |]; tauto.
  - unfold seed_item. fold path start. rewrite (Hall fuel Hf). by destruct exit.
Qed.

End FetchLoop.

(** With fuel for the budget of one item the whole loop comes to an end,
    however many items there are. *)
Lemma seed_loop_terminates fuel env options job items w :
  (Z.to_nat (budget options) <= fuel)%nat ->
  seed_loop fuel env options job items w <> Diverged.
Proof.
  intros Hf. revert w. induction items as [|item items IH]; intros w; [done|].
  cbn [seed_loop].
  destruct (seed_item_spec env options job item fuel w Hf)
    as (st' & exit & n & _ & _ & ->).
  destruct exit; [apply IH | apply IH | done].
Qed.

(** ** Reading a tile list *)

Lemma all_chars_app p a b :
  all_chars p (a +:+ b) = all_chars p a && all_chars p b.
Proof. induction a as [|c a IH]; simpl; [done|]. rewrite IH. by destruct (p c). Qed.

Lemma all_chars_weaken (p q : ascii -> bool) s :
  (forall c, p c = true -> q c = true) -> all_chars p s = true -> all_chars q s = true.
Proof.
  intros Hpq. induction s as [|c s IH]; simpl; [done|].
  intros [Hc Hs]%andb_prop. rewrite (Hpq c Hc), IH; auto.
Qed.

Lemma uint_digits u : all_chars Py.is_digit (NilEmpty.string_of_uint u) = true.
Proof. induction u; simpl; auto. Qed.

Lemma uint_nonempty u : u <> Decimal.Nil -> NilEmpty.string_of_uint u <> "".
Proof. destruct u; simpl; congruence. Qed.

Lemma pos_digits p :
  NilZero.string_of_uint (Pos.to_uint p) = NilEmpty.string_of_uint (Pos.to_uint p)
  /\ NilEmpty.string_of_uint (Pos.to_uint p) <> "".
Proof.
  pose proof (DecimalPos.Unsigned.to_uint_nonnil p) as Hnil.
  split; [|by apply uint_nonempty].
  unfold NilZero.string_of_uint. by destruct (Pos.to_uint p).
Qed.

Lemma fmt_d_numeric z : all_chars numeric (Py.fmt_d z) = true.
Proof.
  assert (Hd : forall u, all_chars numeric (NilEmpty.string_of_uint u) = true).
  { intros u. apply (all_chars_weaken Py.is_digit); [|apply uint_digits].
    intros c Hc. unfold numeric. by rewrite Hc. }
  unfold Py.fmt_d. destruct z as [|p|p]; [reflexivity| |]; simpl;
    destruct (pos_digits p) as [-> _]; auto.
Qed.

Lemma fmt_d_nonempty z : Py.fmt_d z <> "".
Proof.
  unfold Py.fmt_d. destruct z as [|p|p]; simpl; [done| |done].
  destruct (pos_digits p) as [-> H]. exact H.
Qed.

Lemma numeric_not_space c : numeric c = true -> Py.is_space c = false.
Proof.
  destruct c as [[] [] [] [] [] [] [] []]; vm_compute; congruence.
Qed.

Lemma numeric_not_slash c : numeric c = true -> Ascii.eqb c "/" = false.
Proof.
  destruct c as [[] [] [] [] [] [] [] []]; vm_compute; congruence.
Qed.

Lemma numeric_not_newline c : numeric c = true -> Ascii.eqb c "010" = false.
Proof.
  destruct c as [[] [] [] [] [] [] [] []]; vm_compute; congruence.
Qed.

Lemma lstrip_id s : all_chars no_space s = true -> Py.lstrip s = s.
Proof.
  destruct s as [|c s]; simpl; [done|]. unfold no_space.
  intros [Hc _]%andb_prop. by destruct (Py.is_space c).
Qed.

Lemma rstrip_id s : all_chars no_space s = true -> Py.rstrip s = s.
Proof.
  induction s as [|c s IH]; simpl; [done|]. unfold no_space at 1.
  intros [Hc Hs]%andb_prop. rewrite (IH Hs).
  destruct s; [|done]. by destruct (Py.is_space c).
Qed.

Lemma rstrip_newline s :
  all_chars no_space s = true -> Py.rstrip (s +:+ newline) = s.
Proof.
  induction s as [|c s IH]; simpl; [done|]. unfold no_space at 1.
  intros [Hc Hs]%andb_prop. rewrite (IH Hs).
  destruct s; [|done]. by destruct (Py.is_space c).
Qed.

Lemma strip_id s : all_chars no_space s = true -> Py.strip s = s.
Proof. intros H. unfold Py.strip. by rewrite lstrip_id, rstrip_id. Qed.

Lemma strip_line s :
  s <> "" -> all_chars no_space s = true -> Py.strip (s +:+ newline) = s.
Proof.
  intros Hne H. unfold Py.strip.
  destruct s as [|c s]; [done|].
  assert (Hc : Py.is_space c = false).
  { simpl in H. apply andb_prop in H as [Hc _]. unfold no_space in Hc.
    by destruct (Py.is_space c). }
  change (Py.lstrip (String c s +:+ newline))
    with (if Py.is_space c then Py.lstrip (s +:+ newline) else String c s +:+ newline).
  rewrite Hc. by apply rstrip_newline.
Qed.

Lemma split_single s : all_chars no_slash s = true -> Py.split "/" s = [s].
Proof.
  induction s as [|c s IH]; simpl; [done|]. unfold no_slash at 1.
  intros [Hc Hs]%andb_prop. rewrite (IH Hs). by destruct (Ascii.eqb c "/").
Qed.

Lemma split_field s rest :
  all_chars no_slash s = true ->
  Py.split "/" (s +:+ "/" +:+ rest) = s :: Py.split "/" rest.
Proof.
  induction s as [|c s IH]; simpl; [done|]. unfold no_slash at 1.
  intros [Hc Hs]%andb_prop. rewrite (IH Hs). by destruct (Ascii.eqb c "/").
Qed.

Lemma readlines_line s rest :
  all_chars no_newline s = true ->
  Py.readlines (s +:+ newline +:+ rest) = (s +:+ newline) :: Py.readlines rest.
Proof.
  induction s as [|c s IH]; simpl; [done|]. unfold no_newline at 1.
  intros [Hc Hs]%andb_prop. rewrite (IH Hs). by destruct (Ascii.eqb c "010").
Qed.

Lemma numeric_no_space s : all_chars numeric s = true -> all_chars no_space s = true.
Proof.
  apply all_chars_weaken. intros c Hc. unfold no_space.
  by rewrite (numeric_not_space c Hc).
Qed.

Lemma numeric_no_slash s : all_chars numeric s = true -> all_chars no_slash s = true.
Proof.
  apply all_chars_weaken. intros c Hc. unfold no_slash.
  by rewrite (numeric_not_slash c Hc).
Qed.

Lemma numeric_no_newline s : all_chars numeric s = true -> all_chars no_newline s = true.
Proof.
  apply all_chars_weaken. intros c Hc. unfold no_newline.
  by rewrite (numeric_not_newline c Hc).
Qed.

Lemma digits_of_pos p :
  Py.digits (NilEmpty.string_of_uint (Pos.to_uint p)) = Some (Z.pos p).
Proof.
  destruct (pos_digits p) as [_ Hne]. unfold Py.digits.
  destruct (NilEmpty.string_of_uint (Pos.to_uint p)) eqn:Hs; [done|].
  rewrite <- Hs, NilEmpty.usu. simpl. f_equal.
  unfold Z.of_uint. by rewrite DecimalPos.Unsigned.of_to.
Qed.

Lemma digit_not_sign c :
  Py.is_digit c = true -> Ascii.eqb c "-" = false /\ Ascii.eqb c "+" = false.
Proof.
  destruct c as [[] [] [] [] [] [] [] []]; vm_compute; auto; congruence.
Qed.

(** [int] reads back what ['%d'] printed. *)
Lemma int_of_string_fmt_d z : Py.int_of_string (Py.fmt_d z) = Some z.
Proof.
  unfold Py.int_of_string.
  rewrite strip_id by apply numeric_no_space, fmt_d_numeric.
  unfold Py.fmt_d. destruct z as [|p|p]; [reflexivity| |]; simpl.
  - destruct (pos_digits p) as [-> Hne].
    pose proof (digits_of_pos p) as Hd. pose proof (uint_digits (Pos.to_uint p)) as Hall.
    destruct (NilEmpty.string_of_uint (Pos.to_uint p)) as [|c r]; [done|].
    simpl in Hall. apply andb_prop in Hall as [Hc _].
    destruct (digit_not_sign c Hc) as [-> ->]. exact Hd.
  - destruct (pos_digits p) as [-> _]. by rewrite digits_of_pos.
Qed.

Lemma append_assoc (a b c : string) : (a +:+ b) +:+ c = a +:+ (b +:+ c).
Proof.
  induction a as [|x a IH]; [done|].
  change (String x ((a +:+ b) +:+ c) = String x (a +:+ (b +:+ c))).
  by rewrite IH.
Qed.

Lemma error_line_fields coord :
  error_line coord
  = (Py.fmt_d (zoom coord) +:+ "/" +:+ Py.fmt_d (column coord) +:+ "/"
     +:+ Py.fmt_d (row coord)) +:+ newline.
Proof.
  unfold error_line, newline.
  by rewrite !append_assoc.
Qed.

Lemma triple_no_space coord :
  all_chars no_space (Py.fmt_d (zoom coord) +:+ "/" +:+ Py.fmt_d (column coord) +:+ "/"
                      +:+ Py.fmt_d (row coord)) = true.
Proof.
  rewrite !all_chars_app, !(numeric_no_space _ (fmt_d_numeric _)). reflexivity.
Qed.

Lemma triple_no_newline coord :
  all_chars no_newline (Py.fmt_d (zoom coord) +:+ "/" +:+ Py.fmt_d (column coord) +:+ "/"
                        +:+ Py.fmt_d (row coord)) = true.
Proof.
  rewrite !all_chars_app, !(numeric_no_newline _ (fmt_d_numeric _)). reflexivity.
Qed.

Lemma parse_line_error_line coord : parse_line (error_line coord) = Ok coord.
Proof.
  unfold parse_line. rewrite error_line_fields, strip_line.
  - rewrite !split_field, split_single by apply numeric_no_slash, fmt_d_numeric.
    rewrite !int_of_string_fmt_d. by destruct coord.
  - pose proof (fmt_d_nonempty (zoom coord)).
    by destruct (Py.fmt_d (zoom coord)).
  - apply triple_no_space.
Qed.

Lemma readlines_tile_list coords :
  Py.readlines (tile_list_text coords) = error_line <$> coords.
Proof.
  induction coords as [|coord coords IH]; [reflexivity|].
  cbn [tile_list_text fmap list_fmap]. rewrite error_line_fields.
  rewrite append_assoc, readlines_line by apply triple_no_newline.
  by rewrite IH.
Qed.

Lemma traverse_parse_lines coords :
  traverse parse_line (error_line <$> coords) = Ok coords.
Proof.
  induction coords as [|coord coords IH]; [reflexivity|].
  cbn [fmap list_fmap traverse].
  change (list_fmap _ _ error_line coords) with (error_line <$> coords).
  by rewrite parse_line_error_line, IH.
Qed.

(** Claim C6. A tile list holding one zoom/column/row line per coordinate is
    read back as these coordinates, in file order, with offsets from 0 and
    the number of lines as total; the list 12/600/1200, 12/601/1200 gives
    Coordinate(row=1200, column=600, zoom=12) at offset 0 and
    Coordinate(row=1200, column=601, zoom=12) at offset 1, both of total 2. *)
Theorem tile_list_round_trip files filename coords :
  files !! filename = Some (tile_list_text coords) ->
  listCoordinates files filename
  = Ok (enumerate_from 0 (Z.of_nat (length coords)) coords)
  /\ length (Py.readlines (tile_list_text coords)) = length coords
  /\ listCoordinates {[ "tiles.txt" := example_tile_list ]} "tiles.txt"
     = Ok [mkSeedItem 0 2 (mkCoordinate 1200 600 12);
           mkSeedItem 1 2 (mkCoordinate 1200 601 12)].
Proof.
  intros Hfile. split; [|split].
  - unfold listCoordinates. rewrite Hfile, readlines_tile_list, traverse_parse_lines.
    reflexivity.
  - by rewrite readlines_tile_list, length_fmap.
  - vm_compute. reflexivity.
Qed.

(** ** Bounding box and option checks *)

Lemma py_min_Qmin a b : Py.min a b = Qmin a b.
Proof.
  unfold Py.min, Qmin, GenericMinMax.gmin.
  destruct (Qle_bool a b) eqn:Hle.
  - apply Qle_bool_iff in Hle. destruct (a ?= b)%Q eqn:Hc; auto.
    apply Qgt_alt in Hc. exfalso. exact (Qlt_not_le _ _ Hc Hle).
  - destruct (a ?= b)%Q eqn:Hc; auto.
    + apply Qeq_alt in Hc. assert (Qle_bool a b = true) as Ht
        by (apply Qle_bool_iff; rewrite Hc; apply Qle_refl). congruence.
    + apply Qlt_alt in Hc. assert (Qle_bool a b = true) as Ht
        by (apply Qle_bool_iff, Qlt_le_weak, Hc). congruence.
Qed.

Lemma py_max_Qmax a b : Py.max a b = Qmax a b.
Proof.
  unfold Py.max, Qmax, GenericMinMax.gmax.
  destruct (Qle_bool b a) eqn:Hle.
  - apply Qle_bool_iff in Hle. destruct (a ?= b)%Q eqn:Hc; auto.
    apply Qlt_alt in Hc. exfalso. exact (Qlt_not_le _ _ Hc Hle).
  - destruct (a ?= b)%Q eqn:Hc; auto.
    + apply Qeq_alt in Hc. assert (Qle_bool b a = true) as Ht
        by (apply Qle_bool_iff; rewrite Hc; apply Qle_refl). congruence.
    + apply Qgt_alt in Hc. assert (Qle_bool b a = true) as Ht
        by (apply Qle_bool_iff, Qlt_le_weak, Hc). congruence.
Qed.

Lemma Qmin_le_Qmax a b : (Qmin a b <= Qmax a b)%Q.
Proof.
  apply Qle_trans with a; [apply Q.le_min_l | apply Q.le_max_l].
Qed.

Lemma normalize_bbox_ordered lat1 lon1 lat2 lon2 :
  let '(south, west, north, east) := normalize_bbox (lat1, lon1, lat2, lon2) in
  (south <= north)%Q /\ (west <= east)%Q.
Proof.
  unfold normalize_bbox. rewrite !py_min_Qmin, !py_max_Qmax.
  split; apply Qmin_le_Qmax.
Qed.


(** What a job that passed the checks is made of. *)
Lemma setup_job env options zooms job :
  setup env options zooms = Ok job ->
  let '(south, west, north, east) := normalize_bbox (bbox options) in
  job_ul job = locationCoordinate (job_layer job) (mkLocation north west)
  /\ job_lr job = locationCoordinate (job_layer job) (mkLocation south east)
  /\ job_padding job = padding options
  /\ 0 <= job_padding job
  /\ job_tile_list job = tile_list options
  /\ job_error_list job = error_list options.
Proof.
  unfold setup.
  destruct (prepare_layer env options) as [l|]; [|discriminate]. cbn [bind].
  destruct (override_cache options); [|discriminate]. cbn [bind].
  destruct (choose_extension env options) as [ext|]; [|discriminate]. cbn [bind].
  destruct (normalize_bbox (bbox options)) as [[[south west] north] east].
  destruct (traverse parse_zoom zooms) as [zs|]; [|discriminate]. cbn [bind].
  destruct (Z.ltb_spec (padding options) 0); [discriminate|].
  intros [= <-]. cbn. repeat split; auto.
Qed.

Lemma setup_corners_ordered env options zooms job :
  setup env options zooms = Ok job ->
  north_west_up (locationCoordinate (job_layer job)) ->
  upper_left_of (job_ul job) (job_lr job).
Proof.
  intros Hsetup Hproj. pose proof (setup_job _ _ _ _ Hsetup) as Hjob.
  pose proof (normalize_bbox_ordered (bbox options).1.1.1 (bbox options).1.1.2
                                     (bbox options).1.2 (bbox options).2) as Hbox.
  destruct (bbox options) as [[[lat1 lon1] lat2] lon2]. cbn [fst snd] in Hbox.
  destruct (normalize_bbox (lat1, lon1, lat2, lon2)) as [[[south west] north] east].
  destruct Hjob as (-> & -> & _). destruct Hbox as (Hsn & Hwe).
  destruct (Hproj (mkLocation north west) (mkLocation south east)) as (Hz & Hr & Hc).
  unfold upper_left_of. auto.
Qed.


(** For every job that passed the checks, under a projection that sends
    north up and west left, the flood fill runs on corners in order: it
    yields exactly [count] items. *)
Lemma job_flood_fill_counted env options zooms job :
  setup env options zooms = Ok job ->
  north_west_up (locationCoordinate (job_layer job)) ->
  Z.of_nat (length (generateCoordinates (job_ul job) (job_lr job) (job_zooms job)
                                        (job_padding job)))
  = count_coordinates (job_ul job) (job_lr job) (job_zooms job) (job_padding job).
Proof.
  intros Hsetup Hproj.
  pose proof (setup_corners_ordered _ _ _ _ Hsetup Hproj) as Hul.
  pose proof (setup_job _ _ _ _ Hsetup) as Hjob.
  destruct (normalize_bbox (bbox options)) as [[[south west] north] east].
  destruct Hjob as (_ & _ & _ & Hp & _).
  rewrite generateCoordinates_enumerate, enumerate_from_length, count_coordinates_sum.
  by apply flood_length_ordered.
Qed.

(** Claim C2 as worded, for every pair of corners, fails. With the first
    corner below and to the right of the second, both spans are -1 at zoom 0:
    the count is 1 and nothing is yielded. *)
Lemma generateCoordinates_total_counterexample :
  0 <= 0
  /\ count_coordinates (mkCoordinate 2 2 0)%Q (mkCoordinate 0 0 0)%Q [0] 0 = 1
  /\ generateCoordinates (mkCoordinate 2 2 0)%Q (mkCoordinate 0 0 0)%Q [0] 0 = []
  /\ ~ (forall ul lr zooms padding,
          0 <= padding ->
          Z.of_nat (length (generateCoordinates ul lr zooms padding))
          = count_coordinates ul lr zooms padding).
Proof.
  split; [lia|]. split; [reflexivity|]. split; [reflexivity|].
  intros H.
  specialize (H (mkCoordinate 2 2 0)%Q (mkCoordinate 0 0 0)%Q [0] 0 ltac:(lia)).
  vm_compute in H. discriminate H.
Qed.


(** ** Padding *)









(** ** The slice of the stream *)

Lemma seeded_items_take env files options job stream :
  coordinates env files options job = Ok stream ->
  seeded_items env files options job = Ok (take 10 stream)
  /\ length (take 10 stream) = Nat.min 10 (length stream).
Proof. intros H. unfold seeded_items. rewrite H. split; [done | apply length_take]. Qed.

(** Claim C1, on the code. The claim is that the loop attempts every item of
    the stream. The script keeps the first ten items of the stream only: for
    a tile list of eleven lines and a backend that always succeeds, the
    stream has eleven items, each of total 11, and the run finishes after
    ten calls of the backend, the progress file showing 10 of 11. *)
Theorem seeding_stops_after_ten :
  exists job stream w',
    setup (example_env always_ok) tile_list_options [] = Ok job
    /\ coordinates (example_env always_ok) (files tile_list_world)
                   tile_list_options job = Ok stream
    /\ length stream = 11%nat
    /\ item_count <$> stream = replicate 11 11
    /\ main 3 (example_env always_ok) tile_list_options [] tile_list_world
       = Finished w'
    /\ calls w' = 10%nat
    /\ files w' !! "progress.json" = Some "osm/12/609/1200.png 10 11 0KB".
Proof.
  do 3 eexists. split; [vm_compute; reflexivity|].
  split; [vm_compute; reflexivity|].
  split; [reflexivity|]. split; [reflexivity|].
  split; [vm_compute; reflexivity|].
  split; [reflexivity|]. vm_compute. reflexivity.
Qed.

(** ** Instances *)

Lemma generateCoordinates_total_witness :
  upper_left_of (job_ul example_job) (job_lr example_job)
  /\ 0 <= 1
  /\ (let total := flood_total (job_ul example_job) (job_lr example_job) [1; 2] 1 in
      let items := generateCoordinates (job_ul example_job) (job_lr example_job) [1; 2] 1 in
      count_coordinates (job_ul example_job) (job_lr example_job) [1; 2] 1 = total
      /\ (forall item, item ∈ items -> item_count item = total)
      /\ Z.of_nat (length items) = total
      /\ item_coord <$> items
         = flood (job_ul example_job) (job_lr example_job) [1; 2] 1).
Proof.
  assert (H1 : upper_left_of (job_ul example_job) (job_lr example_job))
    by (repeat split; unfold Qle; simpl; lia).
  assert (H2 : 0 <= 1) by lia.
  exact (conj H1 (conj H2 (generateCoordinates_total _ _ [1; 2] 1 H1 H2))).
Defined.


Lemma retry_attempts_witness :
  (Z.to_nat (budget example_options) <= 3)%nat
  /\ (exists w',
        calls w' = (calls empty_world + 3)%nat
        /\ seed_item 3 (example_env never_ok) example_options example_job
                     empty_world example_item = Finished w')
  /\ (exists w' record,
        seed_item 3 (example_env third_time_ok) example_options example_job
                  empty_world example_item = Finished w'
        /\ calls w' = (calls empty_world + 3)%nat
        /\ is_Some (record !! "size")
        /\ files w' = <[progress_path example_options
                         := json_dump (example_env third_time_ok) record]>
                        (files empty_world)).
Proof.
  assert (Hf : (Z.to_nat (budget example_options) <= 3)%nat) by (vm_compute; lia).
  split; [exact Hf|]. split.
  - apply (proj1 (retry_attempts (example_env never_ok) example_options example_job
      example_item 3%nat empty_world Hf)).
    intros n l coord ext ignore. reflexivity.
  - apply (proj2 (retry_attempts (example_env third_time_ok) example_options example_job
      example_item 3%nat empty_world Hf)).
    + reflexivity.
    + repeat split. simpl. eauto.
Defined.

Lemma exhausted_routing_witness :
  (Z.to_nat (budget example_options) <= 3)%nat
  /\ exhausts (example_env never_ok) example_options example_job example_item
              (calls empty_world)
  /\ exists w' record,
       seed_item 3 (example_env never_ok) example_options example_job
                 empty_world example_item = Finished w'
       /\ seed_loop 3 (example_env never_ok) example_options example_job
                    [example_item; example_item] empty_world
          = seed_loop 3 (example_env never_ok) example_options example_job
                      [example_item] w'
       /\ files w'
          = <[progress_path example_options
              := json_dump (example_env never_ok) record]>
              (<[sink example_job
                 := default "" (files empty_world !! sink example_job)
                    +:+ (Py.fmt_d (zoom (item_coord example_item)) +:+ "/"
                         +:+ Py.fmt_d (column (item_coord example_item)) +:+ "/"
                         +:+ Py.fmt_d (row (item_coord example_item))
                         +:+ String "010" "")]> (files empty_world)).
Proof.
  assert (Hf : (Z.to_nat (budget example_options) <= 3)%nat) by (vm_compute; lia).
  assert (Hex : exhausts (example_env never_ok) example_options example_job
                         example_item (calls empty_world))
    by (intros i _; reflexivity).
  split; [exact Hf|]. split; [exact Hex|].
  exact (exhausted_routing (example_env never_ok) example_options example_job
      example_item 3%nat empty_world [example_item] Hf Hex).
Defined.

Lemma tile_list_round_trip_witness :
  ({[ "tiles.txt" := tile_list_text eleven_tiles ]} : gmap string string) !! "tiles.txt"
  = Some (tile_list_text eleven_tiles)
  /\ listCoordinates {[ "tiles.txt" := tile_list_text eleven_tiles ]} "tiles.txt"
     = Ok (enumerate_from 0 (Z.of_nat (length eleven_tiles)) eleven_tiles).
Proof.
  assert (H : ({[ "tiles.txt" := tile_list_text eleven_tiles ]} : gmap string string)
              !! "tiles.txt" = Some (tile_list_text eleven_tiles))
    by reflexivity.
  exact (conj H (proj1 (tile_list_round_trip _ _ _ H))).
Defined.


Lemma progress_snapshot_witness :
  (Z.to_nat (budget example_options) <= 3)%nat
  /\ Py.truthy (progressfile example_options) = true
  /\ exists w',
       seed_item 3 (example_env third_time_ok) example_options example_job
                 empty_world example_item = Finished w'
       /\ files w' !! "progress.json" = Some "osm/1/0/-2.png 1 9 0KB".
Proof.
  assert (Hf : (Z.to_nat (budget example_options) <= 3)%nat) by (vm_compute; lia).
  assert (Hp : Py.truthy (progressfile example_options) = true) by reflexivity.
  split; [exact Hf|]. split; [exact Hp|].
  destruct (progress_snapshot (example_env third_time_ok) example_options example_job
      example_item 3%nat empty_world Hf Hp)
    as [(w' & Habort & _) | (w' & record & fs & Hitem & _)].
  - vm_compute in Habort. discriminate Habort.
  - exists w'. split; [exact Hitem|].
    vm_compute in Hitem. injection Hitem as <-. vm_compute. reflexivity.
Defined.

Lemma fetch_loop_terminates_witness :
  (Z.to_nat (budget example_options) <= 3)%nat
  /\ exists st' exit n,
       while_not_rendered 3 (example_env third_time_ok) example_options example_job
                          example_item (tile_path example_job (item_coord example_item))
                          (initial_state example_options example_job example_item
                                         empty_world)
       = Some (st', exit)
       /\ (1 <= n <= Z.to_nat (budget example_options))%nat.
Proof.
  assert (Hf : (Z.to_nat (budget example_options) <= 3)%nat) by (vm_compute; lia).
  split; [exact Hf|].
  destruct (fetch_loop_terminates (example_env third_time_ok) example_options example_job
      example_item 3%nat empty_world Hf)
    as (_ & st' & exit & n & Hrun & _ & Hn & _).
  exists st', exit, n. split; [exact Hrun | exact Hn].
Defined.

